(** * Rigel-A receiver firmware (rigel-a-rx/rigel-a-sw/src/main.cpp)

    A shallow embedding of the Arduino sketch: [setup] configures the
    STM32WL radio through RadioLib, [loop] performs one blocking receive
    and reports its outcome on [Serial2].

    The sketch only talks to two devices, the serial port and the radio.
    Every call it makes is recorded, in program order, in a trace; what the
    radio answers is given by a device description ([STM32WLx]).  The
    busy wait [while (true);] is the outcome [Spin]. *)

From Stdlib Require Import ZArith QArith List String Ascii Bool DecimalString.
Import ListNotations.

Local Open Scope string_scope.
Local Open Scope Z_scope.

(** ** Board constants (main.cpp, lines 42-50) *)

Inductive PinName : Type := PC_3 | PC_4 | PC_5.

Inductive PinLevel : Type := LOW | HIGH.

Inductive OpMode : Type := MODE_IDLE | MODE_RX | MODE_TX_LP | MODE_TX_HP.

(** One row of the RF switch table, [Module::RfSwitchMode_t]. *)
Record RfSwitchMode_t : Type := RfSwitchMode {
  mode : OpMode;
  values : list PinLevel
}.

Definition rfswitch_pins : list PinName := [PC_3; PC_4; PC_5].

(** The array ends with [END_OF_MODE_TABLE]; the list ends where the
    sentinel stands. *)
Definition rfswitch_table : list RfSwitchMode_t :=
  [ RfSwitchMode MODE_IDLE  [LOW;  LOW;  LOW];
    RfSwitchMode MODE_RX    [HIGH; HIGH; LOW];
    RfSwitchMode MODE_TX_LP [HIGH; HIGH; HIGH];
    RfSwitchMode MODE_TX_HP [HIGH; LOW;  HIGH] ].

(** ** Values and text *)

(** C++ [float] values are only passed around by the sketch, never
    computed with: the literals of the source are kept as rationals. *)
Definition float : Type := Q.

Definition TAB : string := String (ascii_of_nat 9) "".
Definition CRLF : string := String (ascii_of_nat 13) (String (ascii_of_nat 10) "").

(** [Print::print(int)]: the number in base ten, with a leading minus sign
    when negative. *)
Definition decimal (n : Z) : string := NilZero.string_of_int (Z.to_int n).

(** ** The calls the sketch makes *)

(** What is handed to [Serial2.print] / [Serial2.println]: a flash string
    literal [F("...")], an Arduino [String], an [int] or a [float]. *)
Inductive Printable : Type :=
| F (s : string)
| Str (s : string)
| Int (n : Z)
| Flt (x : float).

Inductive SerialCall : Type :=
| Serial_begin (baud : Z)
| print (v : Printable)
| println (v : Printable).

(** The RadioLib entry points used by the sketch, with their arguments.
    [begin] keeps the nine positional arguments of the call at lines 63-73;
    the source names the first six in comments. *)
Inductive RadioCall : Type :=
| setRfSwitchTable (pins : list PinName) (table : list RfSwitchMode_t)
| begin (freq bw : float) (sf cr syncWord power : Z)
        (arg7 : Z) (arg8 : float) (arg9 : bool)
| setTCXO (voltage : float)
| forceLDRO (enable : bool)
| setRxBoostedGainMode (enable : bool)
| implicitHeader (len : Z)
| receive
| getRSSI
| getSNR.

Inductive Event : Type :=
| Serial2 (c : SerialCall)
| radio (c : RadioCall).

Definition Trace : Type := list Event.

Bind Scope list_scope with Trace.

(** ** The radio as seen by the sketch

    The status each configuration call returns, and for the [k]-th blocking
    receive (counting from 0) the status it returns together with the
    contents it leaves in the [String] passed by reference.  [getRSSI_ret k]
    and [getSNR_ret k] are what the accessors answer once [k] receive calls
    have been made. *)
Record STM32WLx : Type := {
  begin_ret : Z;
  setTCXO_ret : Z;
  forceLDRO_ret : Z;
  setRxBoostedGainMode_ret : Z;
  implicitHeader_ret : Z;
  receive_ret : nat -> Z * string;
  getRSSI_ret : nat -> float;
  getSNR_ret : nat -> float
}.

(** ** A monad for the sketch: a trace that grows, and the busy wait *)

Inductive Outcome (A : Type) : Type :=
| Ret (a : A) (t : Trace)
| Spin (t : Trace).

Arguments Ret {A} a t.
Arguments Spin {A} t.

Definition M (A : Type) : Type := Trace -> Outcome A.

Definition ret {A : Type} (a : A) : M A := fun t => Ret a t.

Definition bind {A B : Type} (m : M A) (k : A -> M B) : M B :=
  fun t => match m t with
           | Ret a t' => k a t'
           | Spin t' => Spin t'
           end.

(** [while (true);] *)
Definition spin {A : Type} : M A := fun t => Spin t.

Notation "x <- m ;; k" := (bind m (fun x => k))
  (at level 61, m at next level, right associativity).
Notation "m ;; k" := (bind m (fun _ => k))
  (at level 61, right associativity).

Definition emit (e : Event) : M unit := fun t => Ret tt (t ++ [e])%list.

Definition trace_of {A : Type} (o : Outcome A) : Trace :=
  match o with
  | Ret _ t => t
  | Spin t => t
  end.

Definition halted {A : Type} (o : Outcome A) : bool :=
  match o with
  | Ret _ _ => false
  | Spin _ => true
  end.

(** Number of blocking receives issued so far. *)
Fixpoint receives (t : Trace) : nat :=
  match t with
  | [] => 0%nat
  | radio receive :: t' => S (receives t')
  | _ :: t' => receives t'
  end.

(** *** Serial port *)

Definition Serial2_begin (baud : Z) : M unit := emit (Serial2 (Serial_begin baud)).
Definition Serial2_print (v : Printable) : M unit := emit (Serial2 (print v)).
Definition Serial2_println (v : Printable) : M unit := emit (Serial2 (println v)).

(** *** Radio *)

Definition call {A : Type} (c : RadioCall) (answer : Trace -> A) : M A :=
  fun t => Ret (answer t) (t ++ [radio c])%list.

Definition radio_setRfSwitchTable (pins : list PinName)
    (table : list RfSwitchMode_t) : M unit :=
  emit (radio (setRfSwitchTable pins table)).

Definition radio_begin (dev : STM32WLx) (freq bw : float)
    (sf cr syncWord power arg7 : Z) (arg8 : float) (arg9 : bool) : M Z :=
  call (begin freq bw sf cr syncWord power arg7 arg8 arg9)
       (fun _ => begin_ret dev).

Definition radio_setTCXO (dev : STM32WLx) (voltage : float) : M Z :=
  call (setTCXO voltage) (fun _ => setTCXO_ret dev).

Definition radio_forceLDRO (dev : STM32WLx) (enable : bool) : M Z :=
  call (forceLDRO enable) (fun _ => forceLDRO_ret dev).

Definition radio_setRxBoostedGainMode (dev : STM32WLx) (enable : bool) : M Z :=
  call (setRxBoostedGainMode enable) (fun _ => setRxBoostedGainMode_ret dev).

Definition radio_implicitHeader (dev : STM32WLx) (len : Z) : M Z :=
  call (implicitHeader len) (fun _ => implicitHeader_ret dev).

(** [radio.receive(str)]: the status, and the new contents of [str]. *)
Definition radio_receive (dev : STM32WLx) : M (Z * string) :=
  call receive (fun t => receive_ret dev (receives t)).

Definition radio_getRSSI (dev : STM32WLx) : M float :=
  call getRSSI (fun t => getRSSI_ret dev (receives t)).

Definition radio_getSNR (dev : STM32WLx) : M float :=
  call getSNR (fun t => getSNR_ret dev (receives t)).

(** ** The sketch *)

Section Sketch.

(** RadioLib's status codes come from the library's headers, which are
    not part of the sketch: they are parameters here. *)
Variables RADIOLIB_ERR_NONE RADIOLIB_ERR_RX_TIMEOUT RADIOLIB_ERR_CRC_MISMATCH : Z.

(** main.cpp, lines 54-96. *)
Definition setup (dev : STM32WLx) : M unit :=
  Serial2_begin 115200 ;;
  radio_setRfSwitchTable rfswitch_pins rfswitch_table ;;
  Serial2_print (F "[STM32WL] Initializing ... ") ;;
  state <- radio_begin dev 915%Q 10.4%Q 12 6 18 10 8 1.6%Q false ;;
  (if state =? RADIOLIB_ERR_NONE then
     Serial2_println (F "success!")
   else
     Serial2_print (F "failed, code ") ;;
     Serial2_println (Int state) ;;
     spin) ;;
  state <- radio_setTCXO dev 3.0%Q ;;
  _ <- radio_forceLDRO dev true ;;
  _ <- radio_setRxBoostedGainMode dev true ;;
  _ <- radio_implicitHeader dev 8 ;;
  if state =? RADIOLIB_ERR_NONE then
    Serial2_println (F "success!")
  else
    Serial2_print (F "failed, code ") ;;
    Serial2_println (Int state) ;;
    spin.

(** main.cpp, lines 98-145. *)
Definition loop (dev : STM32WLx) : M unit :=
  Serial2_print (F "[STM32WL] Waiting for incoming transmission ... ") ;;
  r <- radio_receive dev ;;
  let state := fst r in
  let str := snd r in
  if state =? RADIOLIB_ERR_NONE then
    Serial2_println (F "success!") ;;
    Serial2_print (F ("[STM32WL] Data:" ++ TAB ++ TAB)) ;;
    Serial2_println (Str str) ;;
    Serial2_print (F ("[STM32WL] RSSI:" ++ TAB ++ TAB)) ;;
    rssi <- radio_getRSSI dev ;;
    Serial2_print (Flt rssi) ;;
    Serial2_println (F " dBm") ;;
    Serial2_print (F ("[STM32WL] SNR:" ++ TAB ++ TAB)) ;;
    snr <- radio_getSNR dev ;;
    Serial2_print (Flt snr) ;;
    Serial2_println (F " dB")
  else if state =? RADIOLIB_ERR_RX_TIMEOUT then
    Serial2_println (F "timeout!")
  else if state =? RADIOLIB_ERR_CRC_MISMATCH then
    Serial2_println (F "CRC error!")
  else
    Serial2_print (F "failed, code ") ;;
    Serial2_println (Int state).

(** The events of the pass of [loop()] that starts after the trace [t]. *)
Definition pass (dev : STM32WLx) (t : Trace) : Trace :=
  skipn (List.length t) (trace_of (loop dev t)).

(** Modelled from the spec: the Arduino core's [main()], which is not part
    of the sketch, runs [setup()] once and then [loop()] for ever ("Runs
    once", "Runs forever").  [loops n] is [n] passes of [loop()] and
    [sketch n] the program up to the end of the [n]-th pass: every finite
    piece of the run of the board is a [sketch n] for some [n]. *)
Fixpoint loops (n : nat) (dev : STM32WLx) : M unit :=
  match n with
  | O => ret tt
  | S k => loops k dev ;; loop dev
  end.

Definition sketch (n : nat) (dev : STM32WLx) : M unit :=
  setup dev ;; loops n dev.

(** The run from power-on. *)
Definition power_on (n : nat) (dev : STM32WLx) : Outcome unit :=
  sketch n dev [].

End Sketch.

(** ** Observations on traces *)

Fixpoint radio_calls (t : Trace) : list RadioCall :=
  match t with
  | [] => []
  | radio c :: t' => c :: radio_calls t'
  | Serial2 _ :: t' => radio_calls t'
  end.

(** The text a [Print] call sends.  [Print::print(double)] belongs to the
    Arduino core; its rendering of a [float] is the parameter [pf]. *)
Definition text (pf : float -> string) (v : Printable) : string :=
  match v with
  | F s => s
  | Str s => s
  | Int n => decimal n
  | Flt x => pf x
  end.

Definition written (pf : float -> string) (e : Event) : string :=
  match e with
  | Serial2 (print v) => text pf v
  | Serial2 (println v) => text pf v ++ CRLF
  | _ => ""
  end.

(** What an observer reads on the serial line. *)
Fixpoint serial_output (pf : float -> string) (t : Trace) : string :=
  match t with
  | [] => ""
  | e :: t' => written pf e ++ serial_output pf t'
  end.

(** Number of lines completed, one per [println]. *)
Fixpoint lines (t : Trace) : nat :=
  match t with
  | [] => 0%nat
  | Serial2 (println _) :: t' => S (lines t')
  | _ :: t' => lines t'
  end.

(** [occurs p s]: the text [p] appears in [s]. *)
Definition occurs (p s : string) : Prop :=
  exists pre post, s = pre ++ p ++ post.

(** [in_order ps s]: the texts [ps] appear in [s] one after the other. *)
Fixpoint in_order (ps : list string) (s : string) : Prop :=
  match ps with
  | [] => True
  | p :: ps' => exists pre post, s = pre ++ p ++ post /\ in_order ps' post
  end.

Fixpoint contains (p s : string) : bool :=
  prefix p s ||
  match s with
  | EmptyString => false
  | String _ s' => contains p s'
  end.

(** The calls that set the radio up, as opposed to the blocking receive and
    the two read accessors. *)
Definition is_configuration (c : RadioCall) : bool :=
  match c with
  | receive | getRSSI | getSNR => false
  | _ => true
  end.

(** An event of the listening phase: serial output, a receive or a read of
    RSSI / SNR. *)
Definition listening (e : Event) : Prop :=
  match e with
  | Serial2 _ => True
  | radio c => c = receive \/ c = getRSSI \/ c = getSNR
  end.

(** Serial output that carries only string literals of the program. *)
Definition literal_only (e : Event) : Prop :=
  match e with
  | Serial2 (print (F _)) | Serial2 (println (F _)) => True
  | Serial2 (print _) | Serial2 (println _) => False
  | _ => True
  end.

(** The configuration requested from the radio so far: for each
    configuration entry point, the arguments of its latest call. *)
Record Configuration : Type := {
  cfg_rfswitch : option (list PinName * list RfSwitchMode_t);
  cfg_begin : option RadioCall;
  cfg_tcxo : option float;
  cfg_ldro : option bool;
  cfg_boosted_gain : option bool;
  cfg_implicit_header : option Z
}.

Definition unconfigured : Configuration :=
  {| cfg_rfswitch := None; cfg_begin := None; cfg_tcxo := None;
     cfg_ldro := None; cfg_boosted_gain := None; cfg_implicit_header := None |}.

Definition request (c : Configuration) (e : Event) : Configuration :=
  match e with
  | radio (setRfSwitchTable pins table) =>
      {| cfg_rfswitch := Some (pins, table); cfg_begin := cfg_begin c;
         cfg_tcxo := cfg_tcxo c; cfg_ldro := cfg_ldro c;
         cfg_boosted_gain := cfg_boosted_gain c;
         cfg_implicit_header := cfg_implicit_header c |}
  | radio (begin f b s r w p a7 a8 a9) =>
      {| cfg_rfswitch := cfg_rfswitch c;
         cfg_begin := Some (begin f b s r w p a7 a8 a9);
         cfg_tcxo := cfg_tcxo c; cfg_ldro := cfg_ldro c;
         cfg_boosted_gain := cfg_boosted_gain c;
         cfg_implicit_header := cfg_implicit_header c |}
  | radio (setTCXO v) =>
      {| cfg_rfswitch := cfg_rfswitch c; cfg_begin := cfg_begin c;
         cfg_tcxo := Some v; cfg_ldro := cfg_ldro c;
         cfg_boosted_gain := cfg_boosted_gain c;
         cfg_implicit_header := cfg_implicit_header c |}
  | radio (forceLDRO b) =>
      {| cfg_rfswitch := cfg_rfswitch c; cfg_begin := cfg_begin c;
         cfg_tcxo := cfg_tcxo c; cfg_ldro := Some b;
         cfg_boosted_gain := cfg_boosted_gain c;
         cfg_implicit_header := cfg_implicit_header c |}
  | radio (setRxBoostedGainMode b) =>
      {| cfg_rfswitch := cfg_rfswitch c; cfg_begin := cfg_begin c;
         cfg_tcxo := cfg_tcxo c; cfg_ldro := cfg_ldro c;
         cfg_boosted_gain := Some b;
         cfg_implicit_header := cfg_implicit_header c |}
  | radio (implicitHeader n) =>
      {| cfg_rfswitch := cfg_rfswitch c; cfg_begin := cfg_begin c;
         cfg_tcxo := cfg_tcxo c; cfg_ldro := cfg_ldro c;
         cfg_boosted_gain := cfg_boosted_gain c;
         cfg_implicit_header := Some n |}
  | radio receive | radio getRSSI | radio getSNR | Serial2 _ => c
  end.

Definition configuration (t : Trace) : Configuration :=
  fold_left request t unconfigured.

(** ** Concrete values for examples *)

(** The values RadioLib gives the three status codes the sketch names. *)
Module RadioLib.
Definition ERR_NONE : Z := 0.
Definition ERR_RX_TIMEOUT : Z := -6.
Definition ERR_CRC_MISMATCH : Z := -7.
End RadioLib.

(** A rendering of a [float] with two decimals, the format of
    [Print::print(double)]. *)
Definition fixed2 (x : float) : string :=
  let h := (2 * Z.abs (Qnum x) * 100 + Zpos (Qden x)) / (2 * Zpos (Qden x)) in
  let d := h mod 100 in
  (if Qnum x <? 0 then "-" else "") ++ decimal (h / 100) ++ "."
    ++ (if d <? 10 then "0" else "") ++ decimal d.

(** A radio on the bench: the five configuration statuses and the answers
    of the successive receives are chosen, the quality readings are fixed. *)
Definition bench (st_begin st_tcxo st_ldro st_gain st_header : Z)
    (air : nat -> Z * string) : STM32WLx :=
  {| begin_ret := st_begin;
     setTCXO_ret := st_tcxo;
     forceLDRO_ret := st_ldro;
     setRxBoostedGainMode_ret := st_gain;
     implicitHeader_ret := st_header;
     receive_ret := air;
     getRSSI_ret := fun _ => (-42.5)%Q;
     getSNR_ret := fun _ => 9.75%Q |}.

Definition always (r : Z * string) : nat -> Z * string := fun _ => r.

(** The sketch with RadioLib's codes, from power-on. *)
Definition rigel (n : nat) (dev : STM32WLx) : Outcome unit :=
  power_on RadioLib.ERR_NONE RadioLib.ERR_RX_TIMEOUT RadioLib.ERR_CRC_MISMATCH n dev.

(** * Properties *)

(** ** Text *)

Lemma append_nil_r (s : string) : s ++ "" = s.
Proof. induction s as [|a s IH]; simpl; [reflexivity | now rewrite IH]. Qed.

Lemma append_assoc (a b c : string) : (a ++ b) ++ c = a ++ b ++ c.
Proof. induction a as [|x a IH]; simpl; [reflexivity | now rewrite IH]. Qed.

Lemma prefix_append (p post : string) : prefix p (p ++ post) = true.
Proof.
  induction p as [|a p IH]; simpl.
  - now destruct post.
  - destruct (ascii_dec a a) as [_|ne]; [exact IH | now elim ne].
Qed.

Lemma occurs_contains (p s : string) : occurs p s -> contains p s = true.
Proof.
  intros (pre & post & ->).
  induction pre as [|a pre IH].
  - simpl append. generalize (prefix_append p post).
    destruct (p ++ post); simpl; intros ->; reflexivity.
  - simpl. rewrite IH. apply orb_true_r.
Qed.

Lemma occurs_later (p pre q post : string) :
  occurs p post -> occurs p (pre ++ q ++ post).
Proof.
  intros (a & b & ->). exists (pre ++ q ++ a), b.
  now rewrite !append_assoc.
Qed.

Lemma in_order_occurs (ps : list string) :
  forall s, in_order ps s -> Forall (fun p => occurs p s) ps.
Proof.
  induction ps as [|p ps IH]; intros s H; [constructor|].
  destruct H as (pre & post & -> & H). constructor.
  - now exists pre, post.
  - apply IH in H. rewrite Forall_forall in *. intros q Hq.
    apply occurs_later. now apply H.
Qed.

(** ** Traces *)

Lemma receives_app (a b : Trace) : receives (a ++ b)%list = (receives a + receives b)%nat.
Proof.
  induction a as [|e a IH]; [reflexivity|].
  destruct e as [c|c]; simpl; [exact IH|].
  destruct c; simpl; rewrite IH; reflexivity.
Qed.

Lemma radio_calls_app (a b : Trace) :
  radio_calls (a ++ b)%list = (radio_calls a ++ radio_calls b)%list.
Proof.
  induction a as [|e a IH]; [reflexivity|].
  destruct e; simpl; now rewrite IH.
Qed.


Lemma request_listening (e : Event) (c : Configuration) :
  listening e -> request c e = c.
Proof.
  destruct e as [s|r]; [reflexivity|].
  intros [-> | [-> | ->]]; reflexivity.
Qed.

Lemma fold_request_listening (evs : Trace) :
  Forall listening evs -> forall c, fold_left request evs c = c.
Proof.
  induction 1 as [|e evs He _ IH]; intro c; [reflexivity|].
  simpl. now rewrite request_listening, IH.
Qed.

Lemma listening_not_configuration (evs : Trace) :
  Forall listening evs -> filter is_configuration (radio_calls evs) = [].
Proof.
  induction 1 as [|e evs He _ IH]; [reflexivity|].
  destruct e as [s|r]; simpl; [exact IH|].
  destruct He as [-> | [-> | ->]]; simpl; exact IH.
Qed.


(** ** Tactics: running the sketch step by step *)

Ltac step_sketch :=
  unfold setup, loop, bind, spin, ret, Serial2_begin, Serial2_print,
    Serial2_println, radio_setRfSwitchTable, radio_begin, radio_setTCXO,
    radio_forceLDRO, radio_setRxBoostedGainMode, radio_implicitHeader,
    radio_receive, radio_getRSSI, radio_getSNR, emit, call;
  cbn [fst snd].

Ltac flatten_trace :=
  repeat rewrite <- app_assoc; cbn [app];
  repeat rewrite receives_app; cbn [receives]; repeat rewrite Nat.add_0_r.

Section Properties.

Variables NONE TIMEOUT CRC : Z.
Variable pf : float -> string.

(** [setup], evaluated: the three ways it can end. *)
Lemma setup_eval (dev : STM32WLx) (t : Trace) :
  setup NONE dev t =
  if begin_ret dev =? NONE then
    if setTCXO_ret dev =? NONE then
      Ret tt (t ++ [Serial2 (Serial_begin 115200);
                    radio (setRfSwitchTable rfswitch_pins rfswitch_table);
                    Serial2 (print (F "[STM32WL] Initializing ... "));
                    radio (begin 915%Q 10.4%Q 12 6 18 10 8 1.6%Q false);
                    Serial2 (println (F "success!"));
                    radio (setTCXO 3.0%Q);
                    radio (forceLDRO true);
                    radio (setRxBoostedGainMode true);
                    radio (implicitHeader 8);
                    Serial2 (println (F "success!"))])%list
    else
      Spin (t ++ [Serial2 (Serial_begin 115200);
                  radio (setRfSwitchTable rfswitch_pins rfswitch_table);
                  Serial2 (print (F "[STM32WL] Initializing ... "));
                  radio (begin 915%Q 10.4%Q 12 6 18 10 8 1.6%Q false);
                  Serial2 (println (F "success!"));
                  radio (setTCXO 3.0%Q);
                  radio (forceLDRO true);
                  radio (setRxBoostedGainMode true);
                  radio (implicitHeader 8);
                  Serial2 (print (F "failed, code "));
                  Serial2 (println (Int (setTCXO_ret dev)))])%list
  else
    Spin (t ++ [Serial2 (Serial_begin 115200);
                radio (setRfSwitchTable rfswitch_pins rfswitch_table);
                Serial2 (print (F "[STM32WL] Initializing ... "));
                radio (begin 915%Q 10.4%Q 12 6 18 10 8 1.6%Q false);
                Serial2 (print (F "failed, code "));
                Serial2 (println (Int (begin_ret dev)))])%list.
Proof.
  step_sketch.
  destruct (begin_ret dev =? NONE); cbn.
  - destruct (setTCXO_ret dev =? NONE); cbn; flatten_trace; reflexivity.
  - flatten_trace; reflexivity.
Qed.

(** A pass of [loop] always comes back; it starts with the prompt and
    the blocking receive, and whatever follows is serial output or a
    read of RSSI / SNR. *)
Lemma loop_shape (dev : STM32WLx) (t : Trace) :
  exists report,
    loop NONE TIMEOUT CRC dev t =
      Ret tt (t ++ Serial2 (print (F "[STM32WL] Waiting for incoming transmission ... "))
                :: radio receive :: report)%list
    /\ Forall listening report.
Proof.
  step_sketch.
  destruct (fst (receive_ret dev _) =? NONE);
    [| destruct (fst (receive_ret dev _) =? TIMEOUT);
       [| destruct (fst (receive_ret dev _) =? CRC)]];
    cbn; flatten_trace; eexists; (split; [reflexivity|]);
    repeat (apply Forall_cons; [cbn; auto |]); apply Forall_nil.
Qed.

Lemma loops_run (n : nat) (dev : STM32WLx) :
  forall t, exists evs,
    loops NONE TIMEOUT CRC n dev t = Ret tt (t ++ evs)%list
    /\ Forall listening evs.
Proof.
  induction n as [|n IH]; intro t.
  - exists []. cbn. unfold ret. now rewrite app_nil_r.
  - destruct (IH t) as (evs & E & H).
    destruct (loop_shape dev (t ++ evs)%list) as (report & E' & H').
    cbn. unfold bind at 1. rewrite E, E', <- app_assoc.
    eexists. split; [reflexivity|].
    apply Forall_app. split; [exact H|].
    repeat (apply Forall_cons; [cbn; auto |]). exact H'.
Qed.

Lemma loops_never_halt (n : nat) (dev : STM32WLx) (t : Trace) :
  halted (loops NONE TIMEOUT CRC n dev t) = false.
Proof. destruct (loops_run n dev t) as (evs & -> & _). reflexivity. Qed.

Lemma pass_eq (dev : STM32WLx) (t evs : Trace) :
  loop NONE TIMEOUT CRC dev t = Ret tt (t ++ evs) ->
  pass NONE TIMEOUT CRC dev t = evs.
Proof.
  intro E. unfold pass. rewrite E. cbn [trace_of].
  rewrite skipn_app, skipn_all, Nat.sub_diag. reflexivity.
Qed.

(** A second pass starts right where the first one ends. *)
Lemma next_pass_starts (dev : STM32WLx) (t evs : Trace) :
  loop NONE TIMEOUT CRC dev t = Ret tt (t ++ evs) ->
  exists rest,
    (loop NONE TIMEOUT CRC dev ;; loop NONE TIMEOUT CRC dev) t =
      Ret tt (t ++ evs
                ++ Serial2 (print (F "[STM32WL] Waiting for incoming transmission ... "))
                :: radio receive :: rest).
Proof.
  intro E. destruct (loop_shape dev (t ++ evs)) as (rest & E' & _).
  exists rest. unfold bind. now rewrite E, E', <- app_assoc.
Qed.

(** Once [setup] spins, the passes of [loop] never start. *)
Lemma sketch_spin (n : nat) (dev : STM32WLx) (t t' : Trace) :
  setup NONE dev t = Spin t' -> sketch NONE TIMEOUT CRC n dev t = Spin t'.
Proof. intro E. unfold sketch, bind. now rewrite E. Qed.

Lemma sketch_ret (n : nat) (dev : STM32WLx) (t t' : Trace) :
  setup NONE dev t = Ret tt t' ->
  sketch NONE TIMEOUT CRC n dev t = loops NONE TIMEOUT CRC n dev t'.
Proof. intro E. unfold sketch, bind. now rewrite E. Qed.

(** ** Initialisation *)

(** C1.  When [radio.begin] returns a status other than
    RADIOLIB_ERR_NONE, the sketch prints the line
    "[STM32WL] Initializing ... failed, code <status>" and spins for
    ever: however long the board runs, the trace is the same six calls,
    the outcome is the busy wait, and no receive is ever issued. *)
Theorem begin_failure_is_fatal (dev : STM32WLx) (n : nat) :
  begin_ret dev <> NONE ->
  power_on NONE TIMEOUT CRC n dev =
    Spin [Serial2 (Serial_begin 115200);
          radio (setRfSwitchTable rfswitch_pins rfswitch_table);
          Serial2 (print (F "[STM32WL] Initializing ... "));
          radio (begin 915%Q 10.4%Q 12 6 18 10 8 1.6%Q false);
          Serial2 (print (F "failed, code "));
          Serial2 (println (Int (begin_ret dev)))]
  /\ serial_output pf (trace_of (power_on NONE TIMEOUT CRC n dev)) =
       ("[STM32WL] Initializing ... failed, code "
          ++ decimal (begin_ret dev) ++ CRLF)%string
  /\ ~ In (radio receive) (trace_of (power_on NONE TIMEOUT CRC n dev)).
Proof.
  intro Hfail. apply Z.eqb_neq in Hfail.
  assert (E : power_on NONE TIMEOUT CRC n dev =
    Spin [Serial2 (Serial_begin 115200);
          radio (setRfSwitchTable rfswitch_pins rfswitch_table);
          Serial2 (print (F "[STM32WL] Initializing ... "));
          radio (begin 915%Q 10.4%Q 12 6 18 10 8 1.6%Q false);
          Serial2 (print (F "failed, code "));
          Serial2 (println (Int (begin_ret dev)))]).
  { unfold power_on. apply sketch_spin. rewrite setup_eval, Hfail. reflexivity. }
  rewrite E. split; [reflexivity|]. split.
  - cbn. now rewrite append_nil_r.
  - cbn. intros [H|[H|[H|[H|[H|[H|[]]]]]]]; discriminate H.
Qed.

(** C2 (amended).  When [radio.begin] succeeds and [radio.setTCXO], the
    first call of the secondary tuning, returns a status other than
    RADIOLIB_ERR_NONE, the sketch reports it ("failed, code <status>")
    and spins for ever: the receive loop is never entered. *)
Theorem setTCXO_failure_is_fatal (dev : STM32WLx) (n : nat) :
  begin_ret dev = NONE ->
  setTCXO_ret dev <> NONE ->
  halted (power_on NONE TIMEOUT CRC n dev) = true
  /\ serial_output pf (trace_of (power_on NONE TIMEOUT CRC n dev)) =
       ("[STM32WL] Initializing ... success!" ++ CRLF
          ++ "failed, code " ++ decimal (setTCXO_ret dev) ++ CRLF)%string
  /\ ~ In (radio receive) (trace_of (power_on NONE TIMEOUT CRC n dev)).
Proof.
  intros Hb Ht. apply Z.eqb_eq in Hb. apply Z.eqb_neq in Ht.
  unfold power_on. erewrite sketch_spin
    by (rewrite setup_eval, Hb, Ht; reflexivity).
  split; [reflexivity|]. split.
  - cbn. now rewrite append_nil_r.
  - cbn. intros H.
    repeat (destruct H as [H|H]; [discriminate H|]). exact H.
Qed.

(** C3 (amended).  Of the four secondary-tuning calls only the first,
    [radio.setTCXO], assigns the status variable, and that status is
    the one tested after the four calls have been made: after a
    successful [radio.begin], [setup] returns having printed "success!"
    when [setTCXO] answered RADIOLIB_ERR_NONE, and otherwise prints
    "failed, code" with the status of [setTCXO] and spins. *)
Theorem tuning_check_reads_setTCXO (dev : STM32WLx) :
  begin_ret dev = NONE ->
  setup NONE dev [] =
    if setTCXO_ret dev =? NONE then
      Ret tt [Serial2 (Serial_begin 115200);
              radio (setRfSwitchTable rfswitch_pins rfswitch_table);
              Serial2 (print (F "[STM32WL] Initializing ... "));
              radio (begin 915%Q 10.4%Q 12 6 18 10 8 1.6%Q false);
              Serial2 (println (F "success!"));
              radio (setTCXO 3.0%Q);
              radio (forceLDRO true);
              radio (setRxBoostedGainMode true);
              radio (implicitHeader 8);
              Serial2 (println (F "success!"))]
    else
      Spin [Serial2 (Serial_begin 115200);
            radio (setRfSwitchTable rfswitch_pins rfswitch_table);
            Serial2 (print (F "[STM32WL] Initializing ... "));
            radio (begin 915%Q 10.4%Q 12 6 18 10 8 1.6%Q false);
            Serial2 (println (F "success!"));
            radio (setTCXO 3.0%Q);
            radio (forceLDRO true);
            radio (setRxBoostedGainMode true);
            radio (implicitHeader 8);
            Serial2 (print (F "failed, code "));
            Serial2 (println (Int (setTCXO_ret dev)))].
Proof.
  intro Hb. apply Z.eqb_eq in Hb. rewrite setup_eval, Hb. reflexivity.
Qed.

(** C5.  [setup] calls the radio in a fixed order: the RF switch table
    first, then [begin] with the base parameters, and, only when [begin]
    answered RADIOLIB_ERR_NONE, the four tuning calls [setTCXO(3.0)],
    [forceLDRO(true)], [setRxBoostedGainMode(true)],
    [implicitHeader(8)].  However long the sketch runs afterwards, these
    are all the configuration calls it ever makes, so each tuning call
    is made exactly once. *)
Theorem setup_call_order (dev : STM32WLx) (n : nat) :
  radio_calls (trace_of (setup NONE dev [])) =
    ([setRfSwitchTable rfswitch_pins rfswitch_table;
      begin 915%Q 10.4%Q 12 6 18 10 8 1.6%Q false]
     ++ (if begin_ret dev =? NONE then
           [setTCXO 3.0%Q; forceLDRO true; setRxBoostedGainMode true;
            implicitHeader 8]
         else []))%list
  /\ filter is_configuration
       (radio_calls (trace_of (power_on NONE TIMEOUT CRC n dev))) =
     radio_calls (trace_of (setup NONE dev [])).
Proof.
  unfold power_on. pose proof (setup_eval dev []) as E. cbn [app] in E.
  destruct (begin_ret dev =? NONE).
  - destruct (setTCXO_ret dev =? NONE).
    + rewrite (sketch_ret _ _ _ _ E), E.
      destruct (loops_run n dev
        [Serial2 (Serial_begin 115200);
         radio (setRfSwitchTable rfswitch_pins rfswitch_table);
         Serial2 (print (F "[STM32WL] Initializing ... "));
         radio (begin 915%Q 10.4%Q 12 6 18 10 8 1.6%Q false);
         Serial2 (println (F "success!"));
         radio (setTCXO 3.0%Q);
         radio (forceLDRO true);
         radio (setRxBoostedGainMode true);
         radio (implicitHeader 8);
         Serial2 (println (F "success!"))]) as (evs & -> & H).
      split; [reflexivity|].
      cbn [trace_of]. rewrite radio_calls_app, filter_app.
      rewrite (listening_not_configuration _ H), app_nil_r. reflexivity.
    + rewrite (sketch_spin _ _ _ _ E), E. split; reflexivity.
  - rewrite (sketch_spin _ _ _ _ E), E. split; reflexivity.
Qed.

(** ** The receive loop *)

(** C6 (amended).  With the configuration of the sketch (frequency 915,
    bandwidth 10.4, spreading factor 12, coding rate 6, sync word 18,
    power 10) accepted by the radio, a first receive that succeeds with
    the payload "HELLO" makes the pass print "success!", then the label
    "Data:", two tab characters and "HELLO", then the RSSI reading, then
    the SNR reading, in that order. *)
Theorem hello_is_reported (dev : STM32WLx) :
  begin_ret dev = NONE ->
  setTCXO_ret dev = NONE ->
  receive_ret dev 0 = (NONE, "HELLO") ->
  exists t0,
    setup NONE dev [] = Ret tt t0
    /\ In (radio (begin 915%Q 10.4%Q 12 6 18 10 8 1.6%Q false)) t0
    /\ power_on NONE TIMEOUT CRC 1 dev =
         Ret tt (t0 ++
           [Serial2 (print (F "[STM32WL] Waiting for incoming transmission ... "));
            radio receive;
            Serial2 (println (F "success!"));
            Serial2 (print (F ("[STM32WL] Data:" ++ TAB ++ TAB)));
            Serial2 (println (Str "HELLO"));
            Serial2 (print (F ("[STM32WL] RSSI:" ++ TAB ++ TAB)));
            radio getRSSI;
            Serial2 (print (Flt (getRSSI_ret dev 1)));
            Serial2 (println (F " dBm"));
            Serial2 (print (F ("[STM32WL] SNR:" ++ TAB ++ TAB)));
            radio getSNR;
            Serial2 (print (Flt (getSNR_ret dev 1)));
            Serial2 (println (F " dB"))])
    /\ serial_output pf (pass NONE TIMEOUT CRC dev t0) =
         ("[STM32WL] Waiting for incoming transmission ... success!" ++ CRLF
          ++ "[STM32WL] Data:" ++ TAB ++ TAB ++ "HELLO" ++ CRLF
          ++ "[STM32WL] RSSI:" ++ TAB ++ TAB ++ pf (getRSSI_ret dev 1)
          ++ " dBm" ++ CRLF
          ++ "[STM32WL] SNR:" ++ TAB ++ TAB ++ pf (getSNR_ret dev 1)
          ++ " dB" ++ CRLF)%string
    /\ in_order ["success!"; ("Data:" ++ TAB ++ TAB ++ "HELLO")%string;
                 pf (getRSSI_ret dev 1); pf (getSNR_ret dev 1)]
                (serial_output pf (pass NONE TIMEOUT CRC dev t0)).
Proof.
  intros Hb Ht Hrx. apply Z.eqb_eq in Hb. apply Z.eqb_eq in Ht.
  pose proof (setup_eval dev []) as E. rewrite Hb, Ht in E. cbn [app] in E.
  eexists. split; [exact E|]. split; [cbn; tauto|].
  match type of E with _ = Ret tt ?x => set (t0 := x) in * end.
  assert (L : loop NONE TIMEOUT CRC dev t0 = Ret tt (t0 ++
           [Serial2 (print (F "[STM32WL] Waiting for incoming transmission ... "));
            radio receive;
            Serial2 (println (F "success!"));
            Serial2 (print (F ("[STM32WL] Data:" ++ TAB ++ TAB)));
            Serial2 (println (Str "HELLO"));
            Serial2 (print (F ("[STM32WL] RSSI:" ++ TAB ++ TAB)));
            radio getRSSI;
            Serial2 (print (Flt (getRSSI_ret dev 1)));
            Serial2 (println (F " dBm"));
            Serial2 (print (F ("[STM32WL] SNR:" ++ TAB ++ TAB)));
            radio getSNR;
            Serial2 (print (Flt (getSNR_ret dev 1)));
            Serial2 (println (F " dB"))])).
  { step_sketch. flatten_trace.
    change (receives t0) with 0%nat. rewrite Hrx. cbn [fst snd].
    rewrite Z.eqb_refl. cbn. flatten_trace.
    change (receives t0) with 0%nat. reflexivity. }
  split.
  { unfold power_on. rewrite (sketch_ret _ _ _ _ E).
    cbn [loops]. unfold bind at 1, ret. exact L. }
  rewrite (pass_eq _ _ _ L).
  assert (O :
    serial_output pf
      [Serial2 (print (F "[STM32WL] Waiting for incoming transmission ... "));
       radio receive;
       Serial2 (println (F "success!"));
       Serial2 (print (F ("[STM32WL] Data:" ++ TAB ++ TAB)));
       Serial2 (println (Str "HELLO"));
       Serial2 (print (F ("[STM32WL] RSSI:" ++ TAB ++ TAB)));
       radio getRSSI;
       Serial2 (print (Flt (getRSSI_ret dev 1)));
       Serial2 (println (F " dBm"));
       Serial2 (print (F ("[STM32WL] SNR:" ++ TAB ++ TAB)));
       radio getSNR;
       Serial2 (print (Flt (getSNR_ret dev 1)));
       Serial2 (println (F " dB"))] =
    ("[STM32WL] Waiting for incoming transmission ... success!" ++ CRLF
      ++ "[STM32WL] Data:" ++ TAB ++ TAB ++ "HELLO" ++ CRLF
      ++ "[STM32WL] RSSI:" ++ TAB ++ TAB ++ pf (getRSSI_ret dev 1)
      ++ " dBm" ++ CRLF
      ++ "[STM32WL] SNR:" ++ TAB ++ TAB ++ pf (getSNR_ret dev 1)
      ++ " dB" ++ CRLF)%string).
  { cbn. reflexivity. }
  rewrite O. split; [reflexivity|].
  exists "[STM32WL] Waiting for incoming transmission ... "%string.
  eexists. split; [reflexivity|].
  exists (CRLF ++ "[STM32WL] ")%string.
  eexists. split; [reflexivity|].
  exists (CRLF ++ "[STM32WL] RSSI:" ++ TAB ++ TAB)%string.
  eexists. split; [cbn; reflexivity|].
  exists (" dBm" ++ CRLF ++ "[STM32WL] SNR:" ++ TAB ++ TAB)%string.
  eexists. split; [cbn; reflexivity|]. exact I.
Qed.

(** C7.  When the receive of a pass returns RADIOLIB_ERR_RX_TIMEOUT (a
    code other than RADIOLIB_ERR_NONE, as in RadioLib), the pass consists of the prompt, the receive and one "timeout!" line:
    one line of output, nothing but string literals of the program on
    it, no read of RSSI or SNR.  [loop] returns, and the next pass
    starts at once with its prompt and its receive. *)
Theorem timeout_is_reported_once (dev : STM32WLx) (t : Trace) :
  TIMEOUT <> NONE ->
  fst (receive_ret dev (receives t)) = TIMEOUT ->
  loop NONE TIMEOUT CRC dev t =
    Ret tt (t ++ [Serial2 (print (F "[STM32WL] Waiting for incoming transmission ... "));
                  radio receive;
                  Serial2 (println (F "timeout!"))])
  /\ serial_output pf (pass NONE TIMEOUT CRC dev t) =
       ("[STM32WL] Waiting for incoming transmission ... timeout!" ++ CRLF)%string
  /\ lines (pass NONE TIMEOUT CRC dev t) = 1%nat
  /\ Forall literal_only (pass NONE TIMEOUT CRC dev t)
  /\ radio_calls (pass NONE TIMEOUT CRC dev t) = [receive]
  /\ exists rest,
       (loop NONE TIMEOUT CRC dev ;; loop NONE TIMEOUT CRC dev) t =
         Ret tt (t ++ [Serial2 (print (F "[STM32WL] Waiting for incoming transmission ... "));
                       radio receive;
                       Serial2 (println (F "timeout!"))]
                   ++ Serial2 (print (F "[STM32WL] Waiting for incoming transmission ... "))
                   :: radio receive :: rest).
Proof.
  intros Hd Hst.
  assert (L : loop NONE TIMEOUT CRC dev t =
    Ret tt (t ++ [Serial2 (print (F "[STM32WL] Waiting for incoming transmission ... "));
                  radio receive;
                  Serial2 (println (F "timeout!"))])).
  { step_sketch. flatten_trace. rewrite Hst.
    apply Z.eqb_neq in Hd. rewrite Hd, Z.eqb_refl.
    cbn. flatten_trace. reflexivity. }
  split; [exact L|]. rewrite (pass_eq _ _ _ L).
  split; [reflexivity|]. split; [reflexivity|].
  split; [repeat constructor|]. split; [reflexivity|].
  exact (next_pass_starts _ _ _ L).
Qed.

(** C8.  When the receive of a pass returns RADIOLIB_ERR_CRC_MISMATCH (a
    code other than RADIOLIB_ERR_NONE and RADIOLIB_ERR_RX_TIMEOUT, as in
    RadioLib), whatever the receive left in the string, the pass prints the fixed
    text "[STM32WL] Waiting for incoming transmission ... CRC error!":
    only string literals of the program are printed, the received
    string is not, and two such passes print the same events whatever
    their payloads. *)
Theorem crc_mismatch_report_is_fixed (dev : STM32WLx) (t : Trace)
    (payload : string) :
  CRC <> NONE ->
  CRC <> TIMEOUT ->
  receive_ret dev (receives t) = (CRC, payload) ->
  loop NONE TIMEOUT CRC dev t =
    Ret tt (t ++ [Serial2 (print (F "[STM32WL] Waiting for incoming transmission ... "));
                  radio receive;
                  Serial2 (println (F "CRC error!"))])
  /\ serial_output pf (pass NONE TIMEOUT CRC dev t) =
       ("[STM32WL] Waiting for incoming transmission ... CRC error!" ++ CRLF)%string
  /\ Forall literal_only (pass NONE TIMEOUT CRC dev t)
  /\ forall (dev' : STM32WLx) (t' : Trace) (payload' : string),
       receive_ret dev' (receives t') = (CRC, payload') ->
       pass NONE TIMEOUT CRC dev' t' = pass NONE TIMEOUT CRC dev t.
Proof.
  intros Hn Ht Hrx.
  apply Z.eqb_neq in Hn. apply Z.eqb_neq in Ht.
  assert (L : forall d u p, receive_ret d (receives u) = (CRC, p) ->
    loop NONE TIMEOUT CRC d u =
    Ret tt (u ++ [Serial2 (print (F "[STM32WL] Waiting for incoming transmission ... "));
                  radio receive;
                  Serial2 (println (F "CRC error!"))])).
  { intros d u p H. step_sketch. flatten_trace. rewrite H. cbn [fst snd].
    rewrite Hn, Ht, Z.eqb_refl. cbn. flatten_trace. reflexivity. }
  split; [exact (L _ _ _ Hrx)|]. rewrite (pass_eq _ _ _ (L _ _ _ Hrx)).
  split; [reflexivity|]. split; [repeat constructor|].
  intros dev' t' payload' Hrx'. exact (pass_eq _ _ _ (L _ _ _ Hrx')).
Qed.

(** C9.  When the receive of a pass returns a status that is neither
    RADIOLIB_ERR_NONE, nor RADIOLIB_ERR_RX_TIMEOUT, nor
    RADIOLIB_ERR_CRC_MISMATCH, the pass prints "failed, code " and that
    status as a number.  [loop] returns: the next pass starts with its
    prompt and its receive, and no number of further passes ends in the
    busy wait. *)
Theorem other_error_is_reported_by_code (dev : STM32WLx) (t : Trace)
    (st : Z) :
  fst (receive_ret dev (receives t)) = st ->
  st <> NONE ->
  st <> TIMEOUT ->
  st <> CRC ->
  loop NONE TIMEOUT CRC dev t =
    Ret tt (t ++ [Serial2 (print (F "[STM32WL] Waiting for incoming transmission ... "));
                  radio receive;
                  Serial2 (print (F "failed, code "));
                  Serial2 (println (Int st))])
  /\ serial_output pf (pass NONE TIMEOUT CRC dev t) =
       ("[STM32WL] Waiting for incoming transmission ... failed, code "
          ++ decimal st ++ CRLF)%string
  /\ (exists rest,
       (loop NONE TIMEOUT CRC dev ;; loop NONE TIMEOUT CRC dev) t =
         Ret tt (t ++ [Serial2 (print (F "[STM32WL] Waiting for incoming transmission ... "));
                       radio receive;
                       Serial2 (print (F "failed, code "));
                       Serial2 (println (Int st))]
                   ++ Serial2 (print (F "[STM32WL] Waiting for incoming transmission ... "))
                   :: radio receive :: rest))
  /\ forall n : nat,
       halted ((loop NONE TIMEOUT CRC dev ;; loops NONE TIMEOUT CRC n dev) t) = false.
Proof.
  intros Hst Hn Ht Hc.
  apply Z.eqb_neq in Hn. apply Z.eqb_neq in Ht. apply Z.eqb_neq in Hc.
  assert (L : loop NONE TIMEOUT CRC dev t =
    Ret tt (t ++ [Serial2 (print (F "[STM32WL] Waiting for incoming transmission ... "));
                  radio receive;
                  Serial2 (print (F "failed, code "));
                  Serial2 (println (Int st))])).
  { step_sketch. flatten_trace. rewrite Hst, Hn, Ht, Hc.
    cbn. flatten_trace. reflexivity. }
  split; [exact L|]. rewrite (pass_eq _ _ _ L).
  split; [cbn; now rewrite append_nil_r|].
  split; [exact (next_pass_starts _ _ _ L)|].
  intro n. unfold bind. rewrite L. apply loops_never_halt.
Qed.

(** C10.  The passes of [loop] call the radio only through [receive],
    [getRSSI] and [getSNR]: whatever the trace [t] they start from and
    however many they are, they return, the events they add are serial
    output or one of these three calls, and the configuration requested
    from the radio is what it was.  From power-on, the configuration is
    at every time the one [setup] left. *)
Theorem loop_keeps_configuration (dev : STM32WLx) (n : nat) (t : Trace) :
  (exists evs,
     loops NONE TIMEOUT CRC n dev t = Ret tt (t ++ evs)
     /\ Forall listening evs
     /\ (forall c, In c (radio_calls evs) ->
          c = receive \/ c = getRSSI \/ c = getSNR)
     /\ configuration (t ++ evs) = configuration t)
  /\ configuration (trace_of (power_on NONE TIMEOUT CRC n dev)) =
     configuration (trace_of (setup NONE dev [])).
Proof.
  assert (G : forall u, exists evs,
     loops NONE TIMEOUT CRC n dev u = Ret tt (u ++ evs)
     /\ Forall listening evs
     /\ (forall c, In c (radio_calls evs) ->
          c = receive \/ c = getRSSI \/ c = getSNR)
     /\ configuration (u ++ evs) = configuration u).
  { intro u. destruct (loops_run n dev u) as (evs & E & H).
    exists evs. split; [exact E|]. split; [exact H|]. split.
    - clear E. induction H as [|e evs He _ IH]; [intros c []|].
      destruct e as [s|r]; cbn; [exact IH|].
      intros c [<-|Hin]; [exact He | exact (IH c Hin)].
    - unfold configuration. rewrite fold_left_app.
      apply fold_request_listening, H. }
  split; [apply G|].
  unfold power_on. destruct (setup NONE dev []) as [[] t0|t0] eqn:E.
  - rewrite (sketch_ret _ _ _ _ E).
    destruct (G t0) as (evs & -> & _ & _ & C). exact C.
  - rewrite (sketch_spin _ _ _ _ E). reflexivity.
Qed.

End Properties.

(** ** The sketch on the bench, with RadioLib's codes *)

(** What the later tuning calls answer does not reach [loop]. *)
Lemma loops_bench (st_ldro st_gain st_header : Z) (air : nat -> Z * string)
    (n : nat) :
  forall t,
    loops RadioLib.ERR_NONE RadioLib.ERR_RX_TIMEOUT RadioLib.ERR_CRC_MISMATCH n
      (bench 0 0 st_ldro st_gain st_header air) t =
    loops RadioLib.ERR_NONE RadioLib.ERR_RX_TIMEOUT RadioLib.ERR_CRC_MISMATCH n
      (bench 0 0 0 0 0 air) t.
Proof.
  induction n as [|n IH]; intro t; [reflexivity|].
  cbn [loops]. unfold bind. rewrite IH.
  destruct (loops _ _ _ n _ t); reflexivity.
Qed.

(** C4.  A failure status returned by [forceLDRO], [setRxBoostedGainMode]
    or [implicitHeader] is dropped: whatever these three calls answer, the
    run of the sketch is the run where they all succeed.  With [forceLDRO]
    answering -705 the serial line reads "Initializing ... success!" and
    "success!", and no failure is reported. *)
Theorem later_tuning_failures_are_silent :
  (forall (st_ldro st_gain st_header : Z) (air : nat -> Z * string) (n : nat),
     rigel n (bench 0 0 st_ldro st_gain st_header air) =
     rigel n (bench 0 0 0 0 0 air))
  /\ forceLDRO_ret (bench 0 0 (-705) 0 0 (always (0, "HELLO"))) <> RadioLib.ERR_NONE
  /\ serial_output fixed2
       (trace_of (rigel 0 (bench 0 0 (-705) 0 0 (always (0, "HELLO"))))) =
     ("[STM32WL] Initializing ... success!" ++ CRLF ++ "success!" ++ CRLF)%string.
Proof.
  split; [|split; [discriminate | reflexivity]].
  intros l g h air n. unfold rigel, power_on, sketch, bind.
  change (setup RadioLib.ERR_NONE (bench 0 0 l g h air) [])
    with (setup RadioLib.ERR_NONE (bench 0 0 0 0 0 air) []).
  destruct (setup _ _ []); [apply loops_bench | reflexivity].
Qed.

(** C1, on a radio whose [begin] answers -2. *)
Lemma begin_failure_is_fatal_witness :
  begin_ret (bench (-2) 0 0 0 0 (always (0, "HELLO"))) <> RadioLib.ERR_NONE
  /\ serial_output fixed2
       (trace_of (rigel 3 (bench (-2) 0 0 0 0 (always (0, "HELLO"))))) =
     ("[STM32WL] Initializing ... failed, code -2" ++ CRLF)%string
  /\ ~ In (radio receive)
         (trace_of (rigel 3 (bench (-2) 0 0 0 0 (always (0, "HELLO"))))).
Proof.
  assert (H : begin_ret (bench (-2) 0 0 0 0 (always (0, "HELLO")))
              <> RadioLib.ERR_NONE) by discriminate.
  split; [exact H|].
  exact (proj2 (begin_failure_is_fatal RadioLib.ERR_NONE
                  RadioLib.ERR_RX_TIMEOUT RadioLib.ERR_CRC_MISMATCH fixed2
                  (bench (-2) 0 0 0 0 (always (0, "HELLO"))) 3 H)).
Defined.

(** C2 as stated fails: [begin] succeeds and the tuning step fails
    ([setTCXO] answers -1), yet the sketch does not go on to the receive
    loop. *)
Lemma tuning_failure_stops_the_sketch :
  ~ (begin_ret (bench 0 (-1) 0 0 0 (always (0, "HELLO"))) = RadioLib.ERR_NONE ->
     setTCXO_ret (bench 0 (-1) 0 0 0 (always (0, "HELLO"))) <> RadioLib.ERR_NONE ->
     halted (rigel 1 (bench 0 (-1) 0 0 0 (always (0, "HELLO")))) = false
     /\ In (radio receive)
           (trace_of (rigel 1 (bench 0 (-1) 0 0 0 (always (0, "HELLO")))))).
Proof.
  intro H. destruct H as [H _]; [reflexivity | discriminate | discriminate H].
Qed.

(** C2 (amended), on a radio whose [setTCXO] answers -1. *)
Lemma setTCXO_failure_is_fatal_witness :
  begin_ret (bench 0 (-1) 0 0 0 (always (0, "HELLO"))) = RadioLib.ERR_NONE
  /\ setTCXO_ret (bench 0 (-1) 0 0 0 (always (0, "HELLO"))) <> RadioLib.ERR_NONE
  /\ halted (rigel 5 (bench 0 (-1) 0 0 0 (always (0, "HELLO")))) = true
  /\ serial_output fixed2
       (trace_of (rigel 5 (bench 0 (-1) 0 0 0 (always (0, "HELLO"))))) =
     ("[STM32WL] Initializing ... success!" ++ CRLF
        ++ "failed, code -1" ++ CRLF)%string
  /\ ~ In (radio receive)
         (trace_of (rigel 5 (bench 0 (-1) 0 0 0 (always (0, "HELLO"))))).
Proof.
  assert (H : setTCXO_ret (bench 0 (-1) 0 0 0 (always (0, "HELLO")))
              <> RadioLib.ERR_NONE) by discriminate.
  split; [reflexivity|]. split; [exact H|].
  exact (setTCXO_failure_is_fatal RadioLib.ERR_NONE
           RadioLib.ERR_RX_TIMEOUT RadioLib.ERR_CRC_MISMATCH fixed2
           (bench 0 (-1) 0 0 0 (always (0, "HELLO"))) 5 eq_refl H).
Defined.

(** C3 as stated fails: a failure of [setTCXO], which is not the last
    tuning call, changes the output and stops the sketch, while a failure
    of [implicitHeader], the last one, changes nothing. *)
Lemma first_tuning_status_is_the_one_checked :
  serial_output fixed2 (trace_of (rigel 1 (bench 0 (-1) 0 0 0 (always (0, "HELLO")))))
    <> serial_output fixed2 (trace_of (rigel 1 (bench 0 0 0 0 0 (always (0, "HELLO")))))
  /\ halted (rigel 1 (bench 0 (-1) 0 0 0 (always (0, "HELLO")))) = true
  /\ halted (rigel 1 (bench 0 0 0 0 0 (always (0, "HELLO")))) = false
  /\ rigel 1 (bench 0 0 0 0 (-1) (always (0, "HELLO"))) =
     rigel 1 (bench 0 0 0 0 0 (always (0, "HELLO"))).
Proof.
  split; [|split; [|split]]; try reflexivity.
  vm_compute. discriminate.
Qed.

(** C3 (amended), on a radio whose [setTCXO] answers -1 and whose
    later tuning calls succeed. *)
Lemma tuning_check_reads_setTCXO_witness :
  begin_ret (bench 0 (-1) 0 0 0 (always (0, "HELLO"))) = RadioLib.ERR_NONE
  /\ setup RadioLib.ERR_NONE (bench 0 (-1) 0 0 0 (always (0, "HELLO"))) [] =
     Spin [Serial2 (Serial_begin 115200);
           radio (setRfSwitchTable rfswitch_pins rfswitch_table);
           Serial2 (print (F "[STM32WL] Initializing ... "));
           radio (begin 915%Q 10.4%Q 12 6 18 10 8 1.6%Q false);
           Serial2 (println (F "success!"));
           radio (setTCXO 3.0%Q);
           radio (forceLDRO true);
           radio (setRxBoostedGainMode true);
           radio (implicitHeader 8);
           Serial2 (print (F "failed, code "));
           Serial2 (println (Int (-1)))].
Proof.
  split; [reflexivity|].
  exact (tuning_check_reads_setTCXO RadioLib.ERR_NONE
           (bench 0 (-1) 0 0 0 (always (0, "HELLO"))) eq_refl).
Defined.

(** C6 as stated fails: after a successful receive of "HELLO" the serial
    line does not carry the text "Data: HELLO"; the label and the payload
    are separated by two tab characters, not by a space. *)
Lemma hello_line_has_tabs_not_a_space :
  ~ in_order ["success!"; "Data: HELLO"; fixed2 (-42.5)%Q; fixed2 9.75%Q]
      (serial_output fixed2
         (trace_of (rigel 1 (bench 0 0 0 0 0 (always (0, "HELLO")))))).
Proof.
  intro H. apply in_order_occurs in H.
  inversion H as [|? ? _ H']. inversion H' as [|? ? Hocc _].
  apply occurs_contains in Hocc. vm_compute in Hocc. discriminate Hocc.
Qed.

(** C6 (amended), on the bench. *)
Lemma hello_is_reported_witness :
  begin_ret (bench 0 0 0 0 0 (always (0, "HELLO"))) = RadioLib.ERR_NONE
  /\ setTCXO_ret (bench 0 0 0 0 0 (always (0, "HELLO"))) = RadioLib.ERR_NONE
  /\ receive_ret (bench 0 0 0 0 0 (always (0, "HELLO"))) 0 =
       (RadioLib.ERR_NONE, "HELLO")
  /\ exists t0,
       setup RadioLib.ERR_NONE (bench 0 0 0 0 0 (always (0, "HELLO"))) [] = Ret tt t0
       /\ in_order ["success!"; ("Data:" ++ TAB ++ TAB ++ "HELLO")%string;
                    "-42.50"; "9.75"]
            (serial_output fixed2
               (pass RadioLib.ERR_NONE RadioLib.ERR_RX_TIMEOUT
                  RadioLib.ERR_CRC_MISMATCH
                  (bench 0 0 0 0 0 (always (0, "HELLO"))) t0)).
Proof.
  split; [reflexivity|]. split; [reflexivity|]. split; [reflexivity|].
  destruct (hello_is_reported RadioLib.ERR_NONE RadioLib.ERR_RX_TIMEOUT
              RadioLib.ERR_CRC_MISMATCH fixed2
              (bench 0 0 0 0 0 (always (0, "HELLO"))) eq_refl eq_refl eq_refl)
    as (t0 & E & _ & _ & _ & O).
  exists t0. split; [exact E | exact O].
Defined.

(** C7, on a radio that hears nothing: the receive times out. *)
Lemma timeout_is_reported_once_witness :
  RadioLib.ERR_RX_TIMEOUT <> RadioLib.ERR_NONE
  /\ fst (receive_ret (bench 0 0 0 0 0 (always (-6, ""))) (receives [])) =
       RadioLib.ERR_RX_TIMEOUT
  /\ loop RadioLib.ERR_NONE RadioLib.ERR_RX_TIMEOUT RadioLib.ERR_CRC_MISMATCH
       (bench 0 0 0 0 0 (always (-6, ""))) [] =
     Ret tt [Serial2 (print (F "[STM32WL] Waiting for incoming transmission ... "));
             radio receive;
             Serial2 (println (F "timeout!"))]
  /\ lines (pass RadioLib.ERR_NONE RadioLib.ERR_RX_TIMEOUT RadioLib.ERR_CRC_MISMATCH
              (bench 0 0 0 0 0 (always (-6, ""))) []) = 1%nat.
Proof.
  assert (H : RadioLib.ERR_RX_TIMEOUT <> RadioLib.ERR_NONE) by discriminate.
  split; [exact H|]. split; [reflexivity|].
  destruct (timeout_is_reported_once RadioLib.ERR_NONE RadioLib.ERR_RX_TIMEOUT
              RadioLib.ERR_CRC_MISMATCH fixed2
              (bench 0 0 0 0 0 (always (-6, ""))) [] H eq_refl)
    as (L & _ & N & _).
  split; [exact L | exact N].
Defined.

(** C8, on a radio whose receive fails the CRC and leaves "SECRET" in the
    string. *)
Lemma crc_mismatch_report_is_fixed_witness :
  RadioLib.ERR_CRC_MISMATCH <> RadioLib.ERR_NONE
  /\ RadioLib.ERR_CRC_MISMATCH <> RadioLib.ERR_RX_TIMEOUT
  /\ receive_ret (bench 0 0 0 0 0 (always (-7, "SECRET"))) (receives []) =
       (RadioLib.ERR_CRC_MISMATCH, "SECRET")
  /\ serial_output fixed2
       (pass RadioLib.ERR_NONE RadioLib.ERR_RX_TIMEOUT RadioLib.ERR_CRC_MISMATCH
          (bench 0 0 0 0 0 (always (-7, "SECRET"))) []) =
     ("[STM32WL] Waiting for incoming transmission ... CRC error!" ++ CRLF)%string.
Proof.
  assert (H1 : RadioLib.ERR_CRC_MISMATCH <> RadioLib.ERR_NONE) by discriminate.
  assert (H2 : RadioLib.ERR_CRC_MISMATCH <> RadioLib.ERR_RX_TIMEOUT) by discriminate.
  split; [exact H1|]. split; [exact H2|]. split; [reflexivity|].
  exact (proj1 (proj2 (crc_mismatch_report_is_fixed RadioLib.ERR_NONE
           RadioLib.ERR_RX_TIMEOUT RadioLib.ERR_CRC_MISMATCH fixed2
           (bench 0 0 0 0 0 (always (-7, "SECRET"))) [] "SECRET"
           H1 H2 eq_refl))).
Defined.

(** C9, on a radio whose receive answers -2. *)
Lemma other_error_is_reported_by_code_witness :
  fst (receive_ret (bench 0 0 0 0 0 (always (-2, ""))) (receives [])) = -2
  /\ -2 <> RadioLib.ERR_NONE
  /\ -2 <> RadioLib.ERR_RX_TIMEOUT
  /\ -2 <> RadioLib.ERR_CRC_MISMATCH
  /\ serial_output fixed2
       (pass RadioLib.ERR_NONE RadioLib.ERR_RX_TIMEOUT RadioLib.ERR_CRC_MISMATCH
          (bench 0 0 0 0 0 (always (-2, ""))) []) =
     ("[STM32WL] Waiting for incoming transmission ... failed, code -2" ++ CRLF)%string.
Proof.
  assert (H1 : -2 <> RadioLib.ERR_NONE) by discriminate.
  assert (H2 : -2 <> RadioLib.ERR_RX_TIMEOUT) by discriminate.
  assert (H3 : -2 <> RadioLib.ERR_CRC_MISMATCH) by discriminate.
  split; [reflexivity|]. split; [exact H1|]. split; [exact H2|].
  split; [exact H3|].
  exact (proj1 (proj2 (other_error_is_reported_by_code RadioLib.ERR_NONE
           RadioLib.ERR_RX_TIMEOUT RadioLib.ERR_CRC_MISMATCH fixed2
           (bench 0 0 0 0 0 (always (-2, ""))) [] (-2)
           eq_refl H1 H2 H3))).
Defined.

(** * Further properties of [setup] and [loop] *)

Section Passes.

Variables NONE TIMEOUT CRC : Z.
Variable pf : float -> string.

(** [loop], evaluated: the prompt, the receive, and the report chosen by
    the status. *)
Lemma loop_eval (dev : STM32WLx) (t : Trace) :
  loop NONE TIMEOUT CRC dev t =
  Ret tt
    (t ++ Serial2 (print (F "[STM32WL] Waiting for incoming transmission ... "))
       :: radio receive
       :: (if fst (receive_ret dev (receives t)) =? NONE then
             [Serial2 (println (F "success!"));
              Serial2 (print (F ("[STM32WL] Data:" ++ TAB ++ TAB)));
              Serial2 (println (Str (snd (receive_ret dev (receives t)))));
              Serial2 (print (F ("[STM32WL] RSSI:" ++ TAB ++ TAB)));
              radio getRSSI;
              Serial2 (print (Flt (getRSSI_ret dev (S (receives t)))));
              Serial2 (println (F " dBm"));
              Serial2 (print (F ("[STM32WL] SNR:" ++ TAB ++ TAB)));
              radio getSNR;
              Serial2 (print (Flt (getSNR_ret dev (S (receives t)))));
              Serial2 (println (F " dB"))]
           else if fst (receive_ret dev (receives t)) =? TIMEOUT then
             [Serial2 (println (F "timeout!"))]
           else if fst (receive_ret dev (receives t)) =? CRC then
             [Serial2 (println (F "CRC error!"))]
           else
             [Serial2 (print (F "failed, code "));
              Serial2 (println (Int (fst (receive_ret dev (receives t)))))])).
Proof.
  step_sketch. flatten_trace.
  destruct (fst (receive_ret dev (receives t)) =? NONE);
    [| destruct (fst (receive_ret dev (receives t)) =? TIMEOUT);
       [| destruct (fst (receive_ret dev (receives t)) =? CRC)]];
    cbn; flatten_trace; rewrite ?Nat.add_1_r; reflexivity.
Qed.

Lemma pass_eval (dev : STM32WLx) (t : Trace) :
  pass NONE TIMEOUT CRC dev t =
    Serial2 (print (F "[STM32WL] Waiting for incoming transmission ... "))
    :: radio receive
    :: (if fst (receive_ret dev (receives t)) =? NONE then
          [Serial2 (println (F "success!"));
           Serial2 (print (F ("[STM32WL] Data:" ++ TAB ++ TAB)));
           Serial2 (println (Str (snd (receive_ret dev (receives t)))));
           Serial2 (print (F ("[STM32WL] RSSI:" ++ TAB ++ TAB)));
           radio getRSSI;
           Serial2 (print (Flt (getRSSI_ret dev (S (receives t)))));
           Serial2 (println (F " dBm"));
           Serial2 (print (F ("[STM32WL] SNR:" ++ TAB ++ TAB)));
           radio getSNR;
           Serial2 (print (Flt (getSNR_ret dev (S (receives t)))));
           Serial2 (println (F " dB"))]
        else if fst (receive_ret dev (receives t)) =? TIMEOUT then
          [Serial2 (println (F "timeout!"))]
        else if fst (receive_ret dev (receives t)) =? CRC then
          [Serial2 (println (F "CRC error!"))]
        else
          [Serial2 (print (F "failed, code "));
           Serial2 (println (Int (fst (receive_ret dev (receives t)))))]).
Proof. apply pass_eq, loop_eval. Qed.

Lemma loop_pass (dev : STM32WLx) (t : Trace) :
  loop NONE TIMEOUT CRC dev t = Ret tt (t ++ pass NONE TIMEOUT CRC dev t).
Proof. rewrite pass_eval. apply loop_eval. Qed.

(** What holds of the events of every pass holds of all that the passes
    add to the trace. *)
Lemma loops_Forall (P : Event -> Prop) (dev : STM32WLx) :
  (forall t, Forall P (pass NONE TIMEOUT CRC dev t)) ->
  forall n t, exists evs,
    loops NONE TIMEOUT CRC n dev t = Ret tt (t ++ evs) /\ Forall P evs.
Proof.
  intros HP n. induction n as [|n IH]; intro t.
  - exists []. cbn. unfold ret. now rewrite app_nil_r.
  - destruct (IH t) as (evs & E & H).
    exists (evs ++ pass NONE TIMEOUT CRC dev (t ++ evs))%list. split.
    + cbn. unfold bind at 1. rewrite E, loop_pass, <- app_assoc. reflexivity.
    + apply Forall_app. split; [exact H | apply HP].
Qed.

Lemma pass_one_receive (dev : STM32WLx) (t : Trace) :
  receives (pass NONE TIMEOUT CRC dev t) = 1%nat.
Proof.
  rewrite pass_eval.
  destruct (fst (receive_ret dev (receives t)) =? NONE);
    [| destruct (fst (receive_ret dev (receives t)) =? TIMEOUT);
       [| destruct (fst (receive_ret dev (receives t)) =? CRC)]];
    reflexivity.
Qed.

Lemma loops_step (n : nat) (dev : STM32WLx) (t : Trace) :
  loops NONE TIMEOUT CRC (S n) dev t =
  Ret tt (trace_of (loops NONE TIMEOUT CRC n dev t)
            ++ pass NONE TIMEOUT CRC dev (trace_of (loops NONE TIMEOUT CRC n dev t))).
Proof.
  destruct (loops_run NONE TIMEOUT CRC n dev t) as (evs & E & _).
  cbn [loops]. unfold bind at 1. rewrite E. cbn [trace_of]. apply loop_pass.
Qed.

Lemma loops_receives (n : nat) (dev : STM32WLx) (t : Trace) :
  receives (trace_of (loops NONE TIMEOUT CRC n dev t)) = (receives t + n)%nat.
Proof.
  induction n as [|n IH].
  - cbn. now rewrite Nat.add_0_r.
  - rewrite loops_step. cbn [trace_of].
    rewrite receives_app, IH, pass_one_receive, Nat.add_1_r, Nat.add_succ_r.
    reflexivity.
Qed.

(** X1.  A pass whose receive succeeds prints "success!", the received
    string as it is on a "Data:" line, then the RSSI and the SNR read
    after that very receive, each on its own line with its unit; this
    holds for every payload and at every pass. *)
Theorem success_prints_payload_and_fresh_metrics (dev : STM32WLx) (t : Trace)
    (str : string) :
  receive_ret dev (receives t) = (NONE, str) ->
  pass NONE TIMEOUT CRC dev t =
    [Serial2 (print (F "[STM32WL] Waiting for incoming transmission ... "));
     radio receive;
     Serial2 (println (F "success!"));
     Serial2 (print (F ("[STM32WL] Data:" ++ TAB ++ TAB)));
     Serial2 (println (Str str));
     Serial2 (print (F ("[STM32WL] RSSI:" ++ TAB ++ TAB)));
     radio getRSSI;
     Serial2 (print (Flt (getRSSI_ret dev (S (receives t)))));
     Serial2 (println (F " dBm"));
     Serial2 (print (F ("[STM32WL] SNR:" ++ TAB ++ TAB)));
     radio getSNR;
     Serial2 (print (Flt (getSNR_ret dev (S (receives t)))));
     Serial2 (println (F " dB"))]
  /\ serial_output pf (pass NONE TIMEOUT CRC dev t) =
       ("[STM32WL] Waiting for incoming transmission ... success!" ++ CRLF
        ++ "[STM32WL] Data:" ++ TAB ++ TAB ++ str ++ CRLF
        ++ "[STM32WL] RSSI:" ++ TAB ++ TAB
        ++ pf (getRSSI_ret dev (S (receives t))) ++ " dBm" ++ CRLF
        ++ "[STM32WL] SNR:" ++ TAB ++ TAB
        ++ pf (getSNR_ret dev (S (receives t))) ++ " dB" ++ CRLF)%string.
Proof.
  intro Hrx. rewrite pass_eval, Hrx. cbn [fst snd]. rewrite Z.eqb_refl.
  split; [reflexivity|]. cbn. rewrite append_assoc. reflexivity.
Qed.

(** X2.  Once [setup] has succeeded, every pass of [loop] issues exactly
    one receive: after [n] passes the radio has been asked to receive [n]
    times, and the trace after one more pass is the trace so far followed
    by the events of that pass. *)
Theorem one_receive_per_pass (dev : STM32WLx) (n : nat) :
  begin_ret dev = NONE ->
  setTCXO_ret dev = NONE ->
  receives (trace_of (power_on NONE TIMEOUT CRC n dev)) = n
  /\ trace_of (power_on NONE TIMEOUT CRC (S n) dev) =
     (trace_of (power_on NONE TIMEOUT CRC n dev)
        ++ pass NONE TIMEOUT CRC dev (trace_of (power_on NONE TIMEOUT CRC n dev)))%list.
Proof.
  intros Hb Ht. apply Z.eqb_eq in Hb. apply Z.eqb_eq in Ht.
  pose proof (setup_eval NONE dev []) as E. rewrite Hb, Ht in E. cbn [app] in E.
  unfold power_on. rewrite !(sketch_ret NONE TIMEOUT CRC _ _ _ _ E). split.
  - rewrite loops_receives. reflexivity.
  - rewrite loops_step. reflexivity.
Qed.


(** X4.  The radio calls of a pass are the receive and, only when it
    succeeded, one read of the RSSI followed by one read of the SNR: the
    quality readings are never taken after a failed receive. *)
Theorem metrics_read_only_on_success (dev : STM32WLx) (t : Trace) :
  radio_calls (pass NONE TIMEOUT CRC dev t) =
    receive :: (if fst (receive_ret dev (receives t)) =? NONE
                then [getRSSI; getSNR] else []).
Proof.
  rewrite pass_eval.
  destruct (fst (receive_ret dev (receives t)) =? NONE);
    [| destruct (fst (receive_ret dev (receives t)) =? TIMEOUT);
       [| destruct (fst (receive_ret dev (receives t)) =? CRC)]];
    reflexivity.
Qed.

(** X5.  Whenever the receive of a pass does not succeed, whatever its
    status, the string it left behind is not printed: two passes with the
    same failure status emit the same events whatever their payloads, and
    none of these events prints an Arduino [String]. *)
Theorem failed_pass_hides_payload (dev dev' : STM32WLx) (t t' : Trace)
    (st : Z) (payload payload' : string) :
  st <> NONE ->
  receive_ret dev (receives t) = (st, payload) ->
  receive_ret dev' (receives t') = (st, payload') ->
  pass NONE TIMEOUT CRC dev t = pass NONE TIMEOUT CRC dev' t'
  /\ forall s, ~ In (Serial2 (println (Str s))) (pass NONE TIMEOUT CRC dev t)
             /\ ~ In (Serial2 (print (Str s))) (pass NONE TIMEOUT CRC dev t).
Proof.
  intros Hn H H'. apply Z.eqb_neq in Hn.
  rewrite !pass_eval, H, H'. cbn [fst snd]. rewrite Hn.
  split; [reflexivity|]. intro s.
  destruct (st =? TIMEOUT); [| destruct (st =? CRC)]; cbn;
    (split; intro K; repeat (destruct K as [K|K]; [discriminate K|]); exact K).
Qed.

(** X6.  The sketch ends in the busy wait exactly when [radio.begin] or
    [radio.setTCXO] does not answer RADIOLIB_ERR_NONE; when both succeed
    it never halts, however many passes of [loop] it makes. *)
Theorem sketch_halts_iff_setup_fails (dev : STM32WLx) (n : nat) :
  halted (power_on NONE TIMEOUT CRC n dev) =
    negb ((begin_ret dev =? NONE) && (setTCXO_ret dev =? NONE)).
Proof.
  unfold power_on. pose proof (setup_eval NONE dev []) as E.
  destruct (begin_ret dev =? NONE); [destruct (setTCXO_ret dev =? NONE)|].
  - rewrite (sketch_ret NONE TIMEOUT CRC _ _ _ _ E).
    apply loops_never_halt.
  - rewrite (sketch_spin NONE TIMEOUT CRC _ _ _ _ E). reflexivity.
  - rewrite (sketch_spin NONE TIMEOUT CRC _ _ _ _ E). reflexivity.
Qed.

(** X7.  The report of a pass tells the status its receive returned: two
    passes that emit the same events had the same status. *)
Theorem pass_reveals_status (dev dev' : STM32WLx) (t t' : Trace) :
  pass NONE TIMEOUT CRC dev t = pass NONE TIMEOUT CRC dev' t' ->
  fst (receive_ret dev (receives t)) = fst (receive_ret dev' (receives t')).
Proof.
  rewrite !pass_eval.
  set (st := fst (receive_ret dev (receives t))).
  set (st' := fst (receive_ret dev' (receives t'))).
  destruct (Z.eqb_spec st NONE); destruct (Z.eqb_spec st' NONE);
    [congruence | | |].
  1,2: destruct (Z.eqb_spec st' TIMEOUT); destruct (Z.eqb_spec st TIMEOUT);
       try destruct (Z.eqb_spec st' CRC); try destruct (Z.eqb_spec st CRC);
       intro K; discriminate K.
  destruct (Z.eqb_spec st TIMEOUT); destruct (Z.eqb_spec st' TIMEOUT);
    [congruence | | |];
    try destruct (Z.eqb_spec st CRC); try destruct (Z.eqb_spec st' CRC);
    intro K; try discriminate K; congruence.
Qed.

(** The whole run: what [setup] left, followed by events of passes. *)
Lemma power_on_Forall (P : Event -> Prop) (dev : STM32WLx) (n : nat) :
  (forall t, Forall P (pass NONE TIMEOUT CRC dev t)) ->
  exists evs,
    trace_of (power_on NONE TIMEOUT CRC n dev) =
      (trace_of (setup NONE dev []) ++ evs)%list
    /\ Forall P evs.
Proof.
  intro HP. unfold power_on.
  destruct (setup NONE dev []) as [[] t0|t0] eqn:E.
  - rewrite (sketch_ret NONE TIMEOUT CRC _ _ _ _ E).
    destruct (loops_Forall P dev HP n t0) as (evs & -> & H).
    exists evs. split; [reflexivity | exact H].
  - rewrite (sketch_spin NONE TIMEOUT CRC _ _ _ _ E).
    exists []. split; [cbn; now rewrite app_nil_r | constructor].
Qed.

(** X8.  The serial port is opened at 115200 baud before anything else
    happens, and it is never opened again: the first event of every run
    is [Serial2.begin(115200)] and no later event is a [Serial2.begin]. *)
Theorem serial_port_opened_first_and_once (dev : STM32WLx) (n : nat) :
  exists rest,
    trace_of (power_on NONE TIMEOUT CRC n dev) =
      Serial2 (Serial_begin 115200) :: rest
    /\ Forall (fun e => forall baud, e <> Serial2 (Serial_begin baud)) rest.
Proof.
  destruct (power_on_Forall
              (fun e => forall baud, e <> Serial2 (Serial_begin baud)) dev n)
    as (evs & -> & H).
  { intro t. rewrite pass_eval.
    destruct (fst (receive_ret dev (receives t)) =? NONE);
      [| destruct (fst (receive_ret dev (receives t)) =? TIMEOUT);
         [| destruct (fst (receive_ret dev (receives t)) =? CRC)]];
      repeat (apply Forall_cons; [intros baud K; discriminate K|]);
      apply Forall_nil. }
  rewrite setup_eval. cbn [app].
  destruct (begin_ret dev =? NONE); [destruct (setTCXO_ret dev =? NONE)|];
    cbn [trace_of app]; eexists; (split; [reflexivity|]);
    repeat (apply Forall_cons; [intros baud K; discriminate K|]); exact H.
Qed.


(** X10.  A number printed as a failure code is never the success code:
    in every run, each [println] of an [int] carries a status other than
    RADIOLIB_ERR_NONE, and no [int] is printed in any other way. *)
Theorem printed_codes_are_failures (dev : STM32WLx) (n : nat) (st : Z) :
  (In (Serial2 (println (Int st))) (trace_of (power_on NONE TIMEOUT CRC n dev)) ->
   st <> NONE)
  /\ ~ In (Serial2 (print (Int st))) (trace_of (power_on NONE TIMEOUT CRC n dev)).
Proof.
  destruct (power_on_Forall
              (fun e => (e = Serial2 (println (Int st)) -> st <> NONE)
                        /\ e <> Serial2 (print (Int st))) dev n)
    as (evs & -> & H).
  { intro t. rewrite pass_eval.
    destruct (Z.eqb_spec (fst (receive_ret dev (receives t))) NONE) as [e|ne];
      [| destruct (fst (receive_ret dev (receives t)) =? TIMEOUT);
         [| destruct (fst (receive_ret dev (receives t)) =? CRC)]];
      repeat (apply Forall_cons;
              [split; [intro K; try discriminate K; congruence
                      | intro K; discriminate K] |]);
      apply Forall_nil. }
  assert (S0 : Forall (fun e => (e = Serial2 (println (Int st)) -> st <> NONE)
                                 /\ e <> Serial2 (print (Int st)))
                 (trace_of (setup NONE dev []))).
  { rewrite setup_eval. cbn [app].
    destruct (Z.eqb_spec (begin_ret dev) NONE) as [e|ne];
      [destruct (Z.eqb_spec (setTCXO_ret dev) NONE) as [e'|ne']|];
      cbn [trace_of];
      repeat (apply Forall_cons;
              [split; [intro K; try discriminate K; congruence
                      | intro K; discriminate K] |]);
      apply Forall_nil. }
  pose proof (proj2 (Forall_app _ _ _) (conj S0 H)) as A.
  rewrite Forall_forall in A. split.
  - intro Hin. exact (proj1 (A _ Hin) eq_refl).
  - intro Hin. exact (proj2 (A _ Hin) eq_refl).
Qed.

End Passes.

(** X1, at the third pass of a radio that receives "PING" every time. *)
Lemma success_prints_payload_and_fresh_metrics_witness :
  receive_ret (bench 0 0 0 0 0 (always (0, "PING")))
    (receives (trace_of (rigel 2 (bench 0 0 0 0 0 (always (0, "PING")))))) =
    (RadioLib.ERR_NONE, "PING")
  /\ serial_output fixed2
       (pass RadioLib.ERR_NONE RadioLib.ERR_RX_TIMEOUT RadioLib.ERR_CRC_MISMATCH
          (bench 0 0 0 0 0 (always (0, "PING")))
          (trace_of (rigel 2 (bench 0 0 0 0 0 (always (0, "PING")))))) =
     ("[STM32WL] Waiting for incoming transmission ... success!" ++ CRLF
      ++ "[STM32WL] Data:" ++ TAB ++ TAB ++ "PING" ++ CRLF
      ++ "[STM32WL] RSSI:" ++ TAB ++ TAB ++ "-42.50 dBm" ++ CRLF
      ++ "[STM32WL] SNR:" ++ TAB ++ TAB ++ "9.75 dB" ++ CRLF)%string.
Proof.
  split; [reflexivity|].
  exact (proj2 (success_prints_payload_and_fresh_metrics RadioLib.ERR_NONE
           RadioLib.ERR_RX_TIMEOUT RadioLib.ERR_CRC_MISMATCH fixed2
           (bench 0 0 0 0 0 (always (0, "PING")))
           (trace_of (rigel 2 (bench 0 0 0 0 0 (always (0, "PING")))))
           "PING" eq_refl)).
Defined.

(** X2, after three passes on a radio that hears nothing. *)
Lemma one_receive_per_pass_witness :
  begin_ret (bench 0 0 0 0 0 (always (-6, ""))) = RadioLib.ERR_NONE
  /\ setTCXO_ret (bench 0 0 0 0 0 (always (-6, ""))) = RadioLib.ERR_NONE
  /\ receives (trace_of (rigel 3 (bench 0 0 0 0 0 (always (-6, ""))))) = 3%nat.
Proof.
  split; [reflexivity|]. split; [reflexivity|].
  exact (proj1 (one_receive_per_pass RadioLib.ERR_NONE RadioLib.ERR_RX_TIMEOUT
           RadioLib.ERR_CRC_MISMATCH
           (bench 0 0 0 0 0 (always (-6, ""))) 3 eq_refl eq_refl)).
Defined.

(** X5, for two receives that both answer -2 and leave different strings. *)
Lemma failed_pass_hides_payload_witness :
  -2 <> RadioLib.ERR_NONE
  /\ receive_ret (bench 0 0 0 0 0 (always (-2, "LEFT"))) (receives []) = (-2, "LEFT")
  /\ receive_ret (bench 0 0 0 0 0 (always (-2, "RIGHT"))) (receives []) = (-2, "RIGHT")
  /\ pass RadioLib.ERR_NONE RadioLib.ERR_RX_TIMEOUT RadioLib.ERR_CRC_MISMATCH
       (bench 0 0 0 0 0 (always (-2, "LEFT"))) [] =
     pass RadioLib.ERR_NONE RadioLib.ERR_RX_TIMEOUT RadioLib.ERR_CRC_MISMATCH
       (bench 0 0 0 0 0 (always (-2, "RIGHT"))) [].
Proof.
  assert (H : -2 <> RadioLib.ERR_NONE) by discriminate.
  split; [exact H|]. split; [reflexivity|]. split; [reflexivity|].
  exact (proj1 (failed_pass_hides_payload RadioLib.ERR_NONE
           RadioLib.ERR_RX_TIMEOUT RadioLib.ERR_CRC_MISMATCH
           (bench 0 0 0 0 0 (always (-2, "LEFT")))
           (bench 0 0 0 0 0 (always (-2, "RIGHT"))) [] []
           (-2) "LEFT" "RIGHT" H eq_refl eq_refl)).
Defined.

(** X7, for two radios that both time out, with different strings left
    behind. *)
Lemma pass_reveals_status_witness :
  pass RadioLib.ERR_NONE RadioLib.ERR_RX_TIMEOUT RadioLib.ERR_CRC_MISMATCH
    (bench 0 0 0 0 0 (always (-6, "a"))) [] =
  pass RadioLib.ERR_NONE RadioLib.ERR_RX_TIMEOUT RadioLib.ERR_CRC_MISMATCH
    (bench 0 0 0 0 0 (always (-6, "b"))) []
  /\ fst (receive_ret (bench 0 0 0 0 0 (always (-6, "a"))) (receives [])) =
     fst (receive_ret (bench 0 0 0 0 0 (always (-6, "b"))) (receives [])).
Proof.
  split; [reflexivity|].
  exact (pass_reveals_status RadioLib.ERR_NONE RadioLib.ERR_RX_TIMEOUT
           RadioLib.ERR_CRC_MISMATCH
           (bench 0 0 0 0 0 (always (-6, "a")))
           (bench 0 0 0 0 0 (always (-6, "b"))) [] [] eq_refl).
Defined.

(** X10, on a radio whose [begin] answers -2: the code is printed, and it
    is not the success code. *)
Lemma printed_codes_are_failures_witness :
  In (Serial2 (println (Int (-2))))
     (trace_of (rigel 1 (bench (-2) 0 0 0 0 (always (0, "HELLO")))))
  /\ -2 <> RadioLib.ERR_NONE.
Proof.
  assert (H : In (Serial2 (println (Int (-2))))
                (trace_of (rigel 1 (bench (-2) 0 0 0 0 (always (0, "HELLO"))))))
    by (cbn; tauto).
  split; [exact H|].
  exact (proj1 (printed_codes_are_failures RadioLib.ERR_NONE
           RadioLib.ERR_RX_TIMEOUT RadioLib.ERR_CRC_MISMATCH
           (bench (-2) 0 0 0 0 (always (0, "HELLO"))) 1 (-2)) H).
Defined.
